(** * Shallow embedding of the crypto ETL / forecast pipeline

    Source files (directory "Crypto Project"):
    - crypto_etl.py              : the collector job
    - crypto_historical_etl.py   : the backfill job
    - bitcoin_prophet_forecast.py: the forecaster job

    Time values are Python [datetime]s, represented as integers counting
    microseconds (the resolution of [datetime]).  JSON numbers are modelled
    as integers: decimal fractions are outside the model. *)

From Stdlib Require Import List String ZArith Bool Lia Permutation Sorted.
Import ListNotations.
Open Scope string_scope.
Open Scope Z_scope.
Set Warnings "-register-all".


(* ------------------------------------------------------------------ *)
(** ** Python values, SQL cells, rows and tables *)

(** Values a pandas DataFrame cell can hold in these jobs. *)
Inductive pyval :=
| PyNone
| PyNaN
| PyNaT
| PyNum (z : Z)
| PyStr (s : string)
| PyTime (t : Z)
| PyBool (b : bool)
| PyOther.

(** [pd.isna] on a scalar. *)
Definition isna (v : pyval) : bool :=
  match v with
  | PyNone | PyNaN | PyNaT => true
  | _ => false
  end.

(** Values as psycopg2 binds them and as stored in a PostgreSQL column:
    NULL, a number, a quoted string, a timestamp, a boolean, or a Python
    value without a plain SQL literal (a list or a dict). *)
Inductive cell :=
| SNull
| SNum (z : Z)
| SStr (s : string)
| STime (t : Z)
| SBool (b : bool)
| SOther.

Definition cell_eq_dec (a b : cell) : {a = b} + {a <> b}.
Proof. decide equality; auto using Z.eq_dec, string_dec, bool_dec. Defined.

(** A DataFrame row: column name to value, in column order. *)
Definition frame_row := list (string * pyval).
(** A stored row / a parameter tuple bound to its column names. *)
Definition row := list (string * cell).

(** Column types of the tables the jobs touch.  [TOther] is any type the
    DDL of crypto_etl.py does not use (a table the reconciler keeps, or
    [crypto_predictions], may have one). *)
Inductive sqltype :=
| TSerial                 (* SERIAL: integer, filled from a sequence *)
| TTimestamp              (* TIMESTAMP (without time zone) *)
| TText
| TNumeric (p s : Z)      (* NUMERIC(p, s) *)
| TOther (name : string).

(** A column: its name, its type, [NOT NULL], and whether a DEFAULT gives
    it a value when an INSERT leaves it out. *)
Record column := mk_column {
  cname : string;
  ctype : sqltype;
  cnotnull : bool;
  cdefault : bool
}.

(** A table: its columns in order, its rows, and whether it has a unique
    constraint or unique index on exactly (coin_id, timestamp), the arbiter
    that [ON CONFLICT (coin_id, timestamp)] needs.  A stored row holds the
    values as the INSERT bound them; defaults of columns it left out are not
    materialised.  Other constraints, indexes and triggers a kept table may
    have are outside the model. *)
Record table := mk_table { tschema : list column; trows : list row; tunique : bool }.

Definition tcols (t : table) : list string := map cname (tschema t).

(** The [crypto_prices] relation: [None] when the table does not exist. *)
Definition db := option table.

Definition mem (c : string) (l : list string) : bool := existsb (String.eqb c) l.

Definition lookup (c : string) (r : row) : option cell :=
  match find (fun p => String.eqb (fst p) c) r with
  | Some (_, v) => Some v
  | None => None
  end.

Definition find_column (c : string) (schema : list column) : option column :=
  find (fun col => String.eqb (cname col) c) schema.

(* ------------------------------------------------------------------ *)
(** ** crypto_etl.py : create_table_if_not_exists *)

Definition TABLE_NAME := "crypto_prices".

Definition expected_columns : list string :=
  ["id"; "timestamp"; "coin_id"; "symbol"; "name"; "current_price_usd";
   "market_cap_usd"; "total_volume_usd"; "price_change_24h";
   "price_change_percentage_24h"; "circulating_supply"; "total_supply";
   "ath"; "ath_date"; "atl"; "atl_date"; "created_at"].

(** [SELECT column_name FROM information_schema.columns WHERE table_name = ...]:
    no row when the table does not exist. *)
Definition existing_columns (d : db) : list string :=
  match d with
  | None => []
  | Some t => tcols t
  end.

(** The columns of the fixed [CREATE TABLE] DDL. *)
Definition ddl_schema : list column :=
  [mk_column "id" TSerial true true;                  (* SERIAL PRIMARY KEY *)
   mk_column "timestamp" TTimestamp true false;
   mk_column "coin_id" TText true false;
   mk_column "symbol" TText true false;
   mk_column "name" TText true false;
   mk_column "current_price_usd" (TNumeric 20 8) false false;
   mk_column "market_cap_usd" (TNumeric 30 2) false false;
   mk_column "total_volume_usd" (TNumeric 30 2) false false;
   mk_column "price_change_24h" (TNumeric 20 8) false false;
   mk_column "price_change_percentage_24h" (TNumeric 10 4) false false;
   mk_column "circulating_supply" (TNumeric 30 2) false false;
   mk_column "total_supply" (TNumeric 30 2) false false;
   mk_column "ath" (TNumeric 20 8) false false;
   mk_column "ath_date" TTimestamp false false;
   mk_column "atl" (TNumeric 20 8) false false;
   mk_column "atl_date" TTimestamp false false;
   mk_column "created_at" TTimestamp false true].     (* DEFAULT CURRENT_TIMESTAMP *)

(** The table the DDL creates: empty, with [UNIQUE (coin_id, timestamp)]. *)
Definition created_table : table := mk_table ddl_schema [] true.

(** [if not existing_columns or not all(col in existing_columns for col in
    expected_columns)]: drop (losing every row) and recreate; otherwise keep
    the table as it is.  The DDL and the DROP do not fail here; database
    failures are out of the model. *)
Definition create_table_if_not_exists (d : db) : db :=
  let existing := existing_columns d in
  if (match existing with [] => true | _ :: _ => false end)
     || negb (forallb (fun col => mem col existing) expected_columns)
  then Some created_table
  else d.

(* ------------------------------------------------------------------ *)
(** ** crypto_etl.py : insert_data  (crypto_historical_etl.py :
       insert_historical_data has the same body) *)

Inductive db_error :=
| UndefinedTable
| UndefinedColumn (c : string)
| DataError (c : string)          (* value for column [c] rejected: type
                                     mismatch, invalid input, overflow *)
| InvalidColumnReference          (* no unique constraint matches the
                                     ON CONFLICT target *)
| NotNullViolation (c : string).

(** Whether parse analysis accepts a value bound by psycopg2 for a column of
    type [ty] (the INSERT's assignment coercion): a number for NUMERIC and
    for SERIAL (an integer column), a timestamp for TIMESTAMP, and any value
    for TEXT (assignment casts to text exist from every type); a number, a
    timestamp or a boolean has no assignment cast to the other types.  [ext]
    is the server's verdict where the model does not compute it: a quoted
    string read by the input function of a non-text type, a Python value
    without a plain SQL literal, and any value for a column of a type the
    DDL does not use. *)
Definition accepts (ext : sqltype -> cell -> bool) (ty : sqltype) (v : cell) : bool :=
  match v, ty with
  | SNull, _ => true
  | _, TOther _ => ext ty v
  | SOther, _ => ext ty v
  | SStr _, TText => true
  | SStr _, _ => ext ty v
  | _, TText => true
  | SNum _, TNumeric _ _ => true
  | SNum _, TSerial => true
  | STime _, TTimestamp => true
  | _, _ => false
  end.

(** Whether a number fits its column once the planner folds the coercion:
    NUMERIC(p, s) holds the integers of absolute value below 10^(p-s),
    SERIAL the int4 range. *)
Definition fits (ty : sqltype) (v : cell) : bool :=
  match v, ty with
  | SNum z, TNumeric p s => Z.abs z <? 10 ^ (p - s)
  | SNum z, TSerial => (- 2147483648 <=? z) && (z <? 2147483648)
  | _, _ => true
  end.

(** A bound value its column rejects under [ok]. *)
Definition rejected (ok : sqltype -> cell -> bool) (schema : list column) (p : string * cell) : bool :=
  match find_column (fst p) schema with
  | Some col => negb (ok (ctype col) (snd p))
  | None => false
  end.

(** Errors of parse analysis for the column list and the bound values of
    one INSERT: a column the table lacks, then a value its column does not
    accept. *)
Definition parse_errors (ext : sqltype -> cell -> bool) (schema : list column) (r : row)
  : option db_error :=
  match find (fun p => negb (mem (fst p) (map cname schema))) r with
  | Some (c, _) => Some (UndefinedColumn c)
  | None =>
      match find (rejected (accepts ext) schema) r with
      | Some (c, _) => Some (DataError c)
      | None => None
      end
  end.

(** Errors of planning for the bound values: a number out of its column's
    range (numeric field overflow, integer out of range). *)
Definition plan_errors (schema : list column) (r : row) : option db_error :=
  match find (rejected fits schema) r with
  | Some (c, _) => Some (DataError c)
  | None => None
  end.

(** The [NOT NULL] check of the executor, in column order: a NULL bound to
    a NOT NULL column, or a NOT NULL column left out with no DEFAULT. *)
Definition not_null_error (schema : list column) (r : row) : option db_error :=
  match find (fun col => cnotnull col && match lookup (cname col) r with
                                         | Some SNull => true
                                         | Some _ => false
                                         | None => negb (cdefault col)
                                         end) schema with
  | Some col => Some (NotNullViolation (cname col))
  | None => None
  end.

(** Errors PostgreSQL reports for one [INSERT ... ON CONFLICT (coin_id,
    timestamp) DO NOTHING], in the order it finds them: parse analysis (the
    columns and values, then the conflict target's columns), planning (the
    folded coercions of the values, then the arbiter: no unique constraint
    matching the target), execution ([NOT NULL], which is checked before the
    conflict test, so it fires even when the key is already stored). *)
Definition check_row (ext : sqltype -> cell -> bool) (t : table) (r : row) : option db_error :=
  match parse_errors ext (tschema t) r with
  | Some e => Some e
  | None =>
      match find (fun c => negb (mem c (tcols t))) ["coin_id"; "timestamp"] with
      | Some c => Some (UndefinedColumn c)
      | None =>
          match plan_errors (tschema t) r with
          | Some e => Some e
          | None => if tunique t then not_null_error (tschema t) r
                    else Some InvalidColumnReference
          end
      end
  end.

Definition is_null (v : cell) : bool :=
  match v with
  | SNull => true
  | _ => false
  end.

(** The (coin_id, timestamp) of a row when both are present and non-null:
    a row with a NULL in its key never conflicts with another. *)
Definition nonnull_key (r : row) : option (cell * cell) :=
  match lookup "coin_id" r, lookup "timestamp" r with
  | Some a, Some b => if is_null a || is_null b then None else Some (a, b)
  | _, _ => None
  end.

Definition ckey_eq_dec (a b : cell * cell) : {a = b} + {a <> b}.
Proof. decide equality; apply cell_eq_dec. Defined.

Definition ckey_eqb (a b : cell * cell) : bool :=
  if ckey_eq_dec a b then true else false.

(** The arbiter's conflict test between a stored row [x] and the new row. *)
Definition conflicts (x r : row) : bool :=
  match nonnull_key x, nonnull_key r with
  | Some k1, Some k2 => ckey_eqb k1 k2
  | _, _ => false
  end.

(** The non-null keys of stored rows, in table order. *)
Definition key_list (rows : list row) : list (cell * cell) :=
  flat_map (fun r => match nonnull_key r with Some k => [k] | None => [] end) rows.


(** One [INSERT ... ON CONFLICT (coin_id, timestamp) DO NOTHING]. *)
Definition insert_row (ext : sqltype -> cell -> bool) (t : table) (r : row) : table + db_error :=
  match check_row ext t r with
  | Some e => inr e
  | None =>
      if existsb (fun x => conflicts x r) (trows t)
      then inl t
      else inl (mk_table (tschema t) (trows t ++ [r]) (tunique t))
  end.

(** [cur.executemany(insert_sql, values)]: one statement per tuple, inside
    the open transaction, stopping at the first error. *)
Fixpoint executemany (ext : sqltype -> cell -> bool) (t : table) (values : list row)
  : table + db_error :=
  match values with
  | [] => inl t
  | r :: rs =>
      match insert_row ext t r with
      | inl t' => executemany ext t' rs
      | inr e => inr e
      end
  end.

(** [None if pd.isna(val) else val], as psycopg2 then binds it. *)
Definition to_param (v : pyval) : cell :=
  if isna v then SNull
  else match v with
       | PyNum z => SNum z
       | PyStr s => SStr s
       | PyTime t => STime t
       | PyBool b => SBool b
       | _ => SOther
       end.

Definition row_values (r : frame_row) : row :=
  map (fun p => (fst p, to_param (snd p))) r.

(** [insert_data conn df]: returns the table after the call and the
    exception it re-raises, if any.  An empty frame returns early; otherwise
    the batch is committed once ([conn.commit()]) or, on any error, rolled
    back ([conn.rollback()]) and the error re-raised. *)
Definition insert_data (ext : sqltype -> cell -> bool) (d : db) (df : list frame_row)
  : db * option db_error :=
  match df with
  | [] => (d, None)
  | _ :: _ =>
      let values := map row_values df in
      match d with
      | None => (d, Some UndefinedTable)
      | Some t =>
          match executemany ext t values with
          | inl t' => (Some t', None)
          | inr e => (d, Some e)
          end
      end
  end.

(** crypto_historical_etl.py : insert_historical_data, textually the same
    code as [insert_data] apart from its log messages. *)
Definition insert_historical_data (ext : sqltype -> cell -> bool) (d : db) (df : list frame_row)
  : db * option db_error :=
  insert_data ext d df.

(* ------------------------------------------------------------------ *)
(** ** crypto_etl.py : fetch_crypto_data *)

(** A decoded JSON document, as [res.json()] returns it. *)
Inductive json :=
| JNull
| JNum (z : Z)
| JStr (s : string)
| JBool (b : bool)
| JArr (l : list json)
| JObj (kvs : list (string * json)).

(** Python truthiness of a decoded JSON value. *)
Definition truthy (j : json) : bool :=
  match j with
  | JNull => false
  | JNum z => negb (Z.eqb z 0)
  | JStr s => negb (String.eqb s EmptyString)
  | JBool b => b
  | JArr l => match l with [] => false | _ => true end
  | JObj kvs => match kvs with [] => false | _ => true end
  end.

Definition obj_find (kvs : list (string * json)) (k : string) : option json :=
  match find (fun p => String.eqb (fst p) k) kvs with
  | Some (_, v) => Some v
  | None => None
  end.

(** [j[k]]: [None] when it raises (KeyError, TypeError). *)
Definition jget (j : json) (k : string) : option json :=
  match j with
  | JObj kvs => obj_find kvs k
  | _ => None
  end.

(** [j.get(k)]: [None] when it raises (AttributeError on a non-dict),
    [Some None] when the key is absent. *)
Definition jdict_get (j : json) (k : string) : option (option json) :=
  match j with
  | JObj kvs => Some (obj_find kvs k)
  | _ => None
  end.

(** A JSON leaf placed into the row dict. *)
Definition py_of_json (j : json) : pyval :=
  match j with
  | JNull => PyNone
  | JNum z => PyNum z
  | JStr s => PyStr s
  | JBool b => PyBool b
  | _ => PyOther
  end.

Definition COINS : list string := ["bitcoin"; "ethereum"; "binancecoin"; "cardano"].

Section Fetch.

(** [pd.to_datetime] on a JSON value: [None] when it raises. *)
Variable to_datetime : json -> option pyval.

(** The guarded parse of [ath_date] / [atl_date]:
    [d = None; try: if mkt.get(k) and mkt[k].get("usd"): d = pd.to_datetime(mkt[k]["usd"])
     except: log]. *)
Definition parse_date (mkt : json) (k : string) : pyval :=
  match jdict_get mkt k with
  | None => PyNone
  | Some None => PyNone
  | Some (Some v) =>
      if truthy v then
        match jdict_get v "usd" with
        | None => PyNone
        | Some None => PyNone
        | Some (Some u) =>
            if truthy u then
              match to_datetime u with
              | Some d => d
              | None => PyNone
              end
            else PyNone
        end
      else PyNone
  end.

Definition usd (mkt : json) (k : string) : option json :=
  match jget mkt k with
  | Some x => jget x "usd"
  | None => None
  end.

Local Notation "'let?' x := m 'in' k" :=
  (match m with Some x => k | None => None end)
  (at level 200, x name, m at level 100, k at level 200).

(** One iteration of the [for coin in COINS] loop: [resp] is the decoded
    body, [None] when the request, [raise_for_status] or [res.json()] fails;
    the result is [None] when the body of the [try] raises, so the coin is
    logged and skipped. *)
Definition fetch_coin (now : Z) (resp : option json) : option frame_row :=
  let? j := resp in
  let? mkt := jget j "market_data" in
  let ath_date := parse_date mkt "ath_date" in
  let atl_date := parse_date mkt "atl_date" in
  let? id := jget j "id" in
  let? symbol := jget j "symbol" in
  let? name := jget j "name" in
  let? current_price := usd mkt "current_price" in
  let? market_cap := usd mkt "market_cap" in
  let? total_volume := usd mkt "total_volume" in
  let? price_change_24h := jget mkt "price_change_24h" in
  let? price_change_percentage_24h := jget mkt "price_change_percentage_24h" in
  let? circulating_supply := jget mkt "circulating_supply" in
  let? total_supply := jget mkt "total_supply" in
  let? ath := usd mkt "ath" in
  let? atl := usd mkt "atl" in
  Some [("timestamp", PyTime now);
        ("coin_id", py_of_json id);
        ("symbol", py_of_json symbol);
        ("name", py_of_json name);
        ("current_price_usd", py_of_json current_price);
        ("market_cap_usd", py_of_json market_cap);
        ("total_volume_usd", py_of_json total_volume);
        ("price_change_24h", py_of_json price_change_24h);
        ("price_change_percentage_24h", py_of_json price_change_percentage_24h);
        ("circulating_supply", py_of_json circulating_supply);
        ("total_supply", py_of_json total_supply);
        ("ath", py_of_json ath);
        ("ath_date", ath_date);
        ("atl", py_of_json atl);
        ("atl_date", atl_date)].

(** [fetch_crypto_data()]: [api coin] is the decoded response for [coin],
    [now coin] the [datetime.now()] read while building its row. *)
Definition fetch_crypto_data (now : string -> Z) (api : string -> option json)
  : list frame_row :=
  fold_right (fun coin acc =>
                match fetch_coin (now coin) (api coin) with
                | Some r => r :: acc
                | None => acc
                end) [] COINS.

End Fetch.

(* ------------------------------------------------------------------ *)
(** ** crypto_historical_etl.py : fetch_historical_data *)

Definition COIN_ID := "bitcoin".

(** The decoded [market_chart] body: [prices], [market_caps] and
    [total_volumes], each a list of [[timestamp_ms, value]] pairs; [None]
    when the request or the extraction of the three keys raises. *)
Definition hist_response := option (list (Z * pyval) * list (Z * pyval) * list (Z * pyval)).

(** [x[i][1] if i < len(x) else None]. *)
Definition second_at (l : list (Z * pyval)) (i : nat) : pyval :=
  match nth_error l i with
  | Some (_, v) => v
  | None => PyNone
  end.

Section Backfill_fetch.

(** [datetime.fromtimestamp(timestamp_ms / 1000)]: the local wall-clock
    time, in microseconds, of a millisecond epoch timestamp, which depends
    on the process's time zone; [None] when it raises (OverflowError,
    OSError or ValueError outside the platform's range). *)
Variable fromtimestamp : Z -> option Z.

(** The row built for the [i]-th price point; [None] when the conversion of
    its timestamp raises. *)
Definition hist_row (caps vols : list (Z * pyval)) (i : nat) (p : Z * pyval) : option frame_row :=
  let (timestamp_ms, price) := p in
  match fromtimestamp timestamp_ms with
  | None => None
  | Some timestamp =>
      Some [("timestamp", PyTime timestamp);
            ("coin_id", PyStr COIN_ID);
            ("symbol", PyStr "btc");
            ("name", PyStr "Bitcoin");
            ("current_price_usd", price);
            ("market_cap_usd", second_at caps i);
            ("total_volume_usd", second_at vols i);
            ("price_change_24h", PyNone);
            ("price_change_percentage_24h", PyNone);
            ("circulating_supply", PyNone);
            ("total_supply", PyNone);
            ("ath", PyNone);
            ("ath_date", PyNone);
            ("atl", PyNone);
            ("atl_date", PyNone)]
  end.

(** The [for i, (timestamp_ms, price) in enumerate(prices)] loop; [None]
    when one iteration raises. *)
Fixpoint hist_rows (caps vols : list (Z * pyval)) (i : nat) (prices : list (Z * pyval))
  : option (list frame_row) :=
  match prices with
  | [] => Some []
  | p :: ps =>
      match hist_row caps vols i p with
      | None => None
      | Some r =>
          match hist_rows caps vols (S i) ps with
          | Some rs => Some (r :: rs)
          | None => None
          end
      end
  end.

(** [fetch_historical_data(days)] once the response for [days] is known;
    any exception in its [try] yields the empty frame.  [save_historical_files]
    catches its own errors. *)
Definition fetch_historical_data (resp : hist_response) : list frame_row :=
  match resp with
  | None => []
  | Some (prices, caps, vols) =>
      match hist_rows caps vols 0 prices with
      | Some rows => rows
      | None => []
      end
  end.

End Backfill_fetch.

(* ------------------------------------------------------------------ *)
(** ** Configuration read from the environment *)

(** [os.getenv(...)] for the five [POSTGRES_*] variables: [None] when unset. *)
Record config := mk_config {
  host : option string;
  port : option string;
  dbname : option string;
  user : option string;
  password : option string
}.

(** Python truthiness of [os.getenv(...)]: [None] and the empty string are false. *)
Definition truthy_str (o : option string) : bool :=
  match o with
  | Some s => negb (String.eqb s EmptyString)
  | None => false
  end.

Definition config_items (env : config) : list (string * option string) :=
  [("host", host env); ("port", port env); ("dbname", dbname env);
   ("user", user env); ("password", password env)].

(** [[k for k, v in {...}.items() if not v]]. *)
Definition missing_vars (env : config) : list string :=
  map fst (filter (fun p => negb (truthy_str (snd p))) (config_items env)).

(** How a job's process ends: its exit status and, when it exits through the
    startup check, the list it logged. *)
Inductive startup := StartupExit (code : Z) (logged : list string) | StartupContinue.

(** bitcoin_prophet_forecast.py, module level:
    [if not all([host, port, dbname, user, password]): log missing; exit(1)]. *)
Definition forecaster_startup (env : config) : startup :=
  if forallb (fun p => truthy_str (snd p)) (config_items env)
  then StartupContinue
  else StartupExit 1 (missing_vars env).

(* ------------------------------------------------------------------ *)
(** ** The collector and backfill entry points *)

(** What a run leaves behind: the [crypto_prices] relation, the process exit
    status (1 when an exception escapes [main]), the exception that escaped,
    and the [days] passed to [fetch_historical_data] (backfill only). *)
Record outcome := mk_outcome {
  o_db : db;
  o_exit : Z;
  o_raised : option db_error;
  o_requested : option Z
}.

(** crypto_etl.py : main.  [connect env] says whether [psycopg2.connect] on [DB_CONFIG]
    succeeds ([connect_postgres] returns [None] otherwise).  [save_files] and
    [summarize_db] catch their own errors and touch no table. *)
Definition collector_main (ext : sqltype -> cell -> bool) (to_datetime : json -> option pyval)
  (env : config) (connect : config -> bool) (now : string -> Z) (api : string -> option json)
  (d : db) : outcome :=
  let df := fetch_crypto_data to_datetime now api in
  match df with
  | [] => mk_outcome d 0 None None
  | _ :: _ =>
      if negb (connect env) then mk_outcome d 0 None None
      else
        let d1 := create_table_if_not_exists d in
        let (d2, err) := insert_data ext d1 df in
        match err with
        | Some e => mk_outcome d2 1 (Some e) None
        | None => mk_outcome d2 0 None None
        end
  end.

(** crypto_historical_etl.py : check_current_data.  The [COUNT] query
    fails (and the function returns 0) when the table or one of the columns
    it reads is missing. *)
Definition is_bitcoin (r : row) : bool :=
  match lookup "coin_id" r with
  | Some (SStr s) => String.eqb s COIN_ID
  | _ => false
  end.

Definition check_current_data (d : db) : Z :=
  match d with
  | Some t =>
      if mem "coin_id" (tcols t) && mem "timestamp" (tcols t)
      then Z.of_nat (List.length (filter is_bitcoin (trows t)))
      else 0
  | None => 0
  end.

(** crypto_historical_etl.py : main.  [api days] is the response to the
    [market_chart] request for [days].  Every exception raised inside the
    [try] is caught by [except Exception], logged, and [main] returns.  When
    [check_current_data] fails, the table or a column the INSERT names is
    missing, so the insert fails as well. *)
Definition backfill_main (ext : sqltype -> cell -> bool) (fromtimestamp : Z -> option Z)
  (env : config) (connect : config -> bool) (api : Z -> hist_response) (d : db) : outcome :=
  if negb (connect env) then mk_outcome d 0 None None
  else
    let current_count := check_current_data d in
    let days_to_fetch := if current_count <? 30 then 30 else 7 in
    let df := fetch_historical_data fromtimestamp (api days_to_fetch) in
    match df with
    | [] => mk_outcome d 0 None (Some days_to_fetch)
    | _ :: _ =>
        let (d2, _) := insert_historical_data ext d df in
        mk_outcome d2 0 None (Some days_to_fetch)
    end.

(* ------------------------------------------------------------------ *)
(** ** bitcoin_prophet_forecast.py : predictions table and pruner *)

(** One microsecond-resolution day. *)
Definition day : Z := 86400 * 1000000.

(** A row of [crypto_predictions]. *)
Record prediction := mk_prediction {
  p_ds : Z;
  p_yhat : Z;
  p_yhat_lower : Z;
  p_yhat_upper : Z;
  p_symbol : string;
  p_created_at : option Z
}.

(** [DELETE FROM crypto_predictions WHERE symbol = 'BTC' AND created_at <
    NOW() - INTERVAL ':days days'] with [days] bound to [days_to_keep]
    (psycopg2 interpolates the integer inside the literal, giving
    ['30 days']).  A null [created_at] makes the condition unknown: the row
    stays.  [db_now] is the database's [NOW()]. *)
Definition cleanup_old_forecasts (db_now : Z) (days_to_keep : Z)
  (t : list prediction) : list prediction :=
  filter (fun r => negb (String.eqb (p_symbol r) "BTC"
                         && match p_created_at r with
                            | Some c => c <? db_now - days_to_keep * day
                            | None => false
                            end)) t.

(* ------------------------------------------------------------------ *)
(** ** bitcoin_prophet_forecast.py : the forecast pipeline *)
















(** get_recent_forecasts: [SELECT ... FROM crypto_predictions WHERE
    symbol = 'BTC' ORDER BY created_at DESC, ds ASC LIMIT :limit_val]
    on the table's rows.  [recent_le a b] holds when the ORDER BY lets [a]
    come before [b]: PostgreSQL sorts NULLs first under DESC, then later
    [created_at] first, then earlier [ds].  Rows equal on both keys come in
    table order here, one of the orders the database may return. *)
Definition recent_le (a b : prediction) : bool :=
  match p_created_at a, p_created_at b with
  | None, None => p_ds a <=? p_ds b
  | None, Some _ => true
  | Some _, None => false
  | Some x, Some y => (y <? x) || ((x =? y) && (p_ds a <=? p_ds b))
  end.

Fixpoint insert_by (le : prediction -> prediction -> bool) (x : prediction)
  (l : list prediction) : list prediction :=
  match l with
  | [] => [x]
  | y :: ys => if le x y then x :: l else y :: insert_by le x ys
  end.

Definition sort_by (le : prediction -> prediction -> bool) (l : list prediction)
  : list prediction :=
  fold_right (insert_by le) [] l.

(** [None] is a missing table: the query raises and the function returns
    the empty [pd.DataFrame()]. *)
Definition get_recent_forecasts (preds : option (list prediction)) (limit : nat)
  : list prediction :=
  match preds with
  | None => []
  | Some t =>
      firstn limit (sort_by recent_le (filter (fun r => String.eqb (p_symbol r) "BTC") t))
  end.

(* ------------------------------------------------------------------ *)
(** ** Concrete inputs used by the witnesses and counterexamples *)

(** A server verdict that rejects every value the model does not type
    itself. *)
Definition strict_ext (ty : sqltype) (v : cell) : bool := false.

(** [datetime.fromtimestamp] in a process whose local time zone is UTC,
    raising from the year 10000 on. *)
Definition utc_fromtimestamp (ms : Z) : option Z :=
  if ms <? 253402300800000 then Some (ms * 1000) else None.

(** A [market_data] object with every field the collector reads. *)
Definition sample_market : json :=
  JObj [("current_price", JObj [("usd", JNum 60000)]);
        ("market_cap", JObj [("usd", JNum 1200000)]);
        ("total_volume", JObj [("usd", JNum 30000)]);
        ("price_change_24h", JNum 12);
        ("price_change_percentage_24h", JNum 1);
        ("circulating_supply", JNum 19000000);
        ("total_supply", JNum 21000000);
        ("ath", JObj [("usd", JNum 73000)]);
        ("ath_date", JObj [("usd", JStr "2024-03-14T07:10:36.635Z")]);
        ("atl", JObj [("usd", JNum 67)]);
        ("atl_date", JObj [("usd", JStr "not a date")])].

Definition coin_doc (mkt : json) : json :=
  JObj [("id", JStr "bitcoin"); ("symbol", JStr "btc"); ("name", JStr "Bitcoin");
        ("market_data", mkt)].


(** A [pd.to_datetime] that parses one ISO string and raises on the rest. *)
Definition sample_to_datetime (j : json) : option pyval :=
  match j with
  | JStr s => if String.eqb s "2024-03-14T07:10:36.635Z" then Some (PyTime 1710400236635000)
              else None
  | _ => None
  end.

(** Only the bitcoin request succeeds. *)
Definition api_only_bitcoin (mkt : json) (coin : string) : option json :=
  if String.eqb coin "bitcoin" then Some (coin_doc mkt) else None.

Definition env_unset : config := mk_config None None None None None.
Definition env_full : config :=
  mk_config (Some "localhost") (Some "5432") (Some "crypto") (Some "etl") (Some "secret").

(** A [market_chart] response with three daily prices. *)
Definition sample_hist (days : Z) : hist_response :=
  Some ([(1700000000000, PyNum 37000); (1700086400000, PyNum 37500);
         (1700172800000, PyNum 36900)],
        [(1700000000000, PyNum 720000); (1700086400000, PyNum 730000)],
        [(1700000000000, PyNum 20000)]).

(** A stored row of an older layout, and a table of that layout lacking
    [created_at]. *)
Definition old_row : row :=
  [("timestamp", STime 1); ("coin_id", SStr "bitcoin"); ("symbol", SStr "btc");
   ("name", SStr "Bitcoin")].

Definition old_layout_table : table :=
  mk_table (removelast ddl_schema) [old_row] true.

(** A table of the DDL's layout holding [n] bitcoin rows on distinct days. *)
Definition bitcoin_table (n : nat) : table :=
  mk_table ddl_schema
    (map (fun i => [("timestamp", STime (Z.of_nat i * 86400000000)); ("coin_id", SStr "bitcoin");
                    ("symbol", SStr "btc"); ("name", SStr "Bitcoin")]) (seq 0 n)) true.



(** The same bitcoin rows in a table without a [timestamp] column. *)
Definition no_timestamp_table : table :=
  mk_table (filter (fun col => negb (String.eqb (cname col) "timestamp")) ddl_schema)
    (map (fun _ => [("coin_id", SStr "bitcoin"); ("symbol", SStr "btc"); ("name", SStr "Bitcoin")])
         (seq 0 30)) false.



(** A stored ETH prediction. *)
Definition eth_prediction : prediction := mk_prediction 0 3000 2900 3100 "ETH" (Some (- 400 * day)).

(** [d'] is [d] with rows only appended: no stored row changed or removed,
    the layout unchanged. *)
Definition extends (d d' : db) : Prop :=
  d' = d \/
  exists t t' added, d = Some t /\ d' = Some t' /\ tschema t' = tschema t /\
                     tunique t' = tunique t /\ trows t' = (trows t ++ added)%list.

(* ================================================================== *)
(** * Lemmas *)

Lemma mem_In (c : string) (l : list string) : mem c l = true <-> In c l.
Proof.
  unfold mem. rewrite existsb_exists. split.
  - intros [x [Hx Heq]]. apply String.eqb_eq in Heq. subst. exact Hx.
  - intros H. exists c. split; [exact H | apply String.eqb_refl].
Qed.

Lemma forallb_mem_In (l e : list string) :
  forallb (fun col => mem col l) e = true <-> (forall c, In c e -> In c l).
Proof.
  rewrite forallb_forall. split; intros H c Hc; apply mem_In; auto.
Qed.


(** The DDL's columns are the expected list, in order. *)
Lemma tcols_created : tcols created_table = expected_columns.
Proof. reflexivity. Qed.

(** C1 *)
(** The reconciler always leaves a table holding every expected column.  It
    recreates the table from the fixed DDL (expected columns exactly, no
    rows) when the table is absent or lacks an expected column, and leaves
    the table untouched, extra columns included, when none is missing. *)
Theorem reconciler_schema :
  forall d : db,
  exists t, create_table_if_not_exists d = Some t /\
    (forall c, In c expected_columns -> In c (tcols t)) /\
    ((d = None \/ exists c, In c expected_columns /\ ~ In c (existing_columns d)) ->
       t = created_table) /\
    ((forall c, In c expected_columns -> In c (existing_columns d)) -> d = Some t).
Proof.
  intros d. unfold create_table_if_not_exists.
  destruct (forallb (fun col => mem col (existing_columns d)) expected_columns) eqn:Hf.
  - pose proof (proj1 (forallb_mem_In _ _) Hf) as Hall.
    destruct (existing_columns d) as [|c0 cs] eqn:He.
    + exfalso. apply (Hall "id"). left; reflexivity.
    + cbn [orb negb].
      destruct d as [t|]; [|discriminate]. simpl in He.
      exists t. split; [reflexivity|]. rewrite He. split; [exact Hall|].
      split; [|auto]. intros [Hn | [c [Hc Hnc]]]; [discriminate|].
      exfalso. apply Hnc, Hall, Hc.
  - assert (Hif : (match existing_columns d with [] => true | _ :: _ => false end
                   || negb false) = true) by (rewrite orb_true_r; reflexivity).
    rewrite Hif. exists created_table. split; [reflexivity|].
    split; [intros c Hc; rewrite tcols_created; exact Hc|]. split; [auto|]. intros H. exfalso.
    apply (proj2 (forallb_mem_In _ _)) in H. congruence.
Qed.

(** C1: counterexample *)
(** A table holding every expected column plus an extra one is kept as it
    is: its column set is not the expected list afterwards. *)
Lemma reconciler_keeps_extra_column :
  exists t, create_table_if_not_exists
              (Some (mk_table (ddl_schema ++ [mk_column "extra" TText false false])%list [] true))
            = Some t /\ In "extra" (tcols t) /\ ~ In "extra" expected_columns.
Proof.
  eexists. split; [vm_compute; reflexivity|]. split.
  - apply mem_In. vm_compute. reflexivity.
  - intros H. apply mem_In in H. vm_compute in H. discriminate H.
Qed.

(** *** The loader: [executemany] with [ON CONFLICT DO NOTHING] *)

Lemma ckey_eqb_spec (a b : cell * cell) : ckey_eqb a b = true <-> a = b.
Proof. unfold ckey_eqb. destruct (ckey_eq_dec a b); split; congruence. Qed.

Lemma key_list_In (k : cell * cell) (rows : list row) :
  In k (key_list rows) <-> exists x, In x rows /\ nonnull_key x = Some k.
Proof.
  unfold key_list. rewrite in_flat_map. split; intros [x [Hx Hk]]; exists x; split; auto.
  - destruct (nonnull_key x) as [k'|]; simpl in Hk; [|contradiction].
    destruct Hk as [<- | []]. reflexivity.
  - rewrite Hk. left; reflexivity.
Qed.

Lemma key_list_app (l1 l2 : list row) : key_list (l1 ++ l2)%list = (key_list l1 ++ key_list l2)%list.
Proof. unfold key_list. apply flat_map_app. Qed.

Lemma conflicts_exist (rows : list row) (r : row) :
  existsb (fun x => conflicts x r) rows = true <->
  exists k, nonnull_key r = Some k /\ In k (key_list rows).
Proof.
  rewrite existsb_exists. split.
  - intros [x [Hx Hc]]. unfold conflicts in Hc.
    destruct (nonnull_key x) as [k1|] eqn:E1; [|discriminate].
    destruct (nonnull_key r) as [k2|] eqn:E2; [|discriminate].
    apply ckey_eqb_spec in Hc. subst k2. exists k1. split; [reflexivity|].
    apply key_list_In. exists x. auto.
  - intros [k [Hr Hk]]. apply key_list_In in Hk as [x [Hx Hxk]].
    exists x. split; [exact Hx|]. unfold conflicts. rewrite Hxk, Hr. apply ckey_eqb_spec. reflexivity.
Qed.

(** [check_row] reads only the table's layout. *)
Lemma check_row_layout (ext : sqltype -> cell -> bool) (t t' : table) (r : row) :
  tschema t' = tschema t -> tunique t' = tunique t -> check_row ext t' r = check_row ext t r.
Proof. intros Hs Hu. unfold check_row, tcols. rewrite Hs, Hu. reflexivity. Qed.

Lemma insert_row_extends ext (t t' : table) (r : row) :
  insert_row ext t r = inl t' ->
  tschema t' = tschema t /\ tunique t' = tunique t /\
  exists added, trows t' = (trows t ++ added)%list.
Proof.
  unfold insert_row. destruct (check_row ext t r); [discriminate|].
  destruct (existsb _ _); intros H; injection H as <-.
  - split; [reflexivity|]. split; [reflexivity|]. exists []. symmetry. apply app_nil_r.
  - split; [reflexivity|]. split; [reflexivity|]. exists [r]. reflexivity.
Qed.

Lemma executemany_extends ext (rs : list row) : forall (t t' : table),
  executemany ext t rs = inl t' ->
  tschema t' = tschema t /\ tunique t' = tunique t /\
  exists added, trows t' = (trows t ++ added)%list.
Proof.
  induction rs as [|r rs IH]; simpl; intros t t' H.
  - injection H as <-. split; [reflexivity|]. split; [reflexivity|].
    exists []. symmetry. apply app_nil_r.
  - destruct (insert_row ext t r) as [t1|e] eqn:Hr; [|discriminate].
    destruct (insert_row_extends _ _ _ _ Hr) as [Hs1 [Hu1 [a1 Ha1]]].
    destruct (IH _ _ H) as [Hs2 [Hu2 [a2 Ha2]]].
    split; [congruence|]. split; [congruence|].
    exists (a1 ++ a2)%list. rewrite Ha2, Ha1. symmetry. apply app_assoc.
Qed.



Lemma executemany_checks ext (rs : list row) : forall (t t' : table),
  executemany ext t rs = inl t' -> Forall (fun r => check_row ext t r = None) rs.
Proof.
  induction rs as [|r rs IH]; simpl; intros t t' H; [constructor|].
  destruct (insert_row ext t r) as [t1|e] eqn:Hr; [|discriminate].
  destruct (insert_row_extends _ _ _ _ Hr) as [Hs [Hu _]].
  constructor.
  - unfold insert_row in Hr. destruct (check_row ext t r); [discriminate|reflexivity].
  - eapply Forall_impl; [|exact (IH _ _ H)]. intros x Hx.
    rewrite <- (check_row_layout ext t t1 x Hs Hu). exact Hx.
Qed.

Lemma insert_row_key ext (t t' : table) (r : row) (k : cell * cell) :
  insert_row ext t r = inl t' -> nonnull_key r = Some k -> In k (key_list (trows t')).
Proof.
  unfold insert_row. intros H Hk. destruct (check_row ext t r); [discriminate|].
  destruct (existsb (fun x => conflicts x r) (trows t)) eqn:He; injection H as <-; simpl.
  - apply conflicts_exist in He as [k' [Hk' Hin]]. congruence.
  - rewrite key_list_app. apply in_or_app. right. apply key_list_In.
    exists r. split; [left; reflexivity | exact Hk].
Qed.

Lemma executemany_keys ext (rs : list row) : forall (t t' : table),
  executemany ext t rs = inl t' ->
  (forall k, In k (key_list (trows t)) -> In k (key_list (trows t'))) /\
  (forall r k, In r rs -> nonnull_key r = Some k -> In k (key_list (trows t'))).
Proof.
  induction rs as [|r rs IH]; simpl; intros t t' H.
  - injection H as <-. split; [auto | intros r k []].
  - destruct (insert_row ext t r) as [t1|e] eqn:Hr; [|discriminate].
    destruct (IH _ _ H) as [Hpres Hin].
    destruct (insert_row_extends _ _ _ _ Hr) as [_ [_ [a Ha]]].
    split.
    + intros k Hk. apply Hpres. rewrite Ha, key_list_app. apply in_or_app. left. exact Hk.
    + intros r' k [<- | Hr'] Hk; [|eauto]. apply Hpres. eapply insert_row_key; eauto.
Qed.




(** Rows whose key is already stored are skipped without error. *)
Lemma insert_row_present ext (t : table) (r : row) (k : cell * cell) :
  check_row ext t r = None -> nonnull_key r = Some k -> In k (key_list (trows t)) ->
  insert_row ext t r = inl t.
Proof.
  unfold insert_row. intros -> Hk Hin.
  assert (Hex : existsb (fun x => conflicts x r) (trows t) = true)
    by (apply conflicts_exist; exists k; auto).
  rewrite Hex. reflexivity.
Qed.

Lemma executemany_present ext (rs : list row) (t : table) :
  (forall r, In r rs -> check_row ext t r = None /\
                        exists k, nonnull_key r = Some k /\ In k (key_list (trows t))) ->
  executemany ext t rs = inl t.
Proof.
  induction rs as [|r rs IH]; simpl; intros H; [reflexivity|].
  destruct (H r (or_introl eq_refl)) as [Hc [k [Hk Hin]]].
  rewrite (insert_row_present ext t r k Hc Hk Hin). apply IH. intros r' Hr'. apply H. right; exact Hr'.
Qed.







(** *** Startup and error propagation *)

Lemma forecaster_startup_cases (env : config) :
  (missing_vars env <> [] -> forecaster_startup env = StartupExit 1 (missing_vars env)) /\
  (missing_vars env = [] -> forecaster_startup env = StartupContinue).
Proof.
  unfold forecaster_startup, missing_vars, config_items. cbn [forallb filter map snd fst].
  destruct (truthy_str (host env)), (truthy_str (port env)), (truthy_str (dbname env)),
           (truthy_str (user env)), (truthy_str (password env));
    cbn; split; intros H; congruence.
Qed.

Lemma collector_no_connection ext td env connect now api d :
  connect env = false -> o_exit (collector_main ext td env connect now api d) = 0.
Proof.
  intros Hc. unfold collector_main.
  destruct (fetch_crypto_data td now api); [reflexivity|]. rewrite Hc. reflexivity.
Qed.

Lemma backfill_exit_zero ext fromts env connect api d :
  o_raised (backfill_main ext fromts env connect api d) = None /\
  o_exit (backfill_main ext fromts env connect api d) = 0.
Proof.
  unfold backfill_main. destruct (connect env); simpl; [|split; reflexivity].
  destruct (fetch_historical_data _ _); [split; reflexivity|].
  destruct (insert_historical_data _ _ _). split; reflexivity.
Qed.

(** C4 *)
(** Only the forecaster validates its environment: when any of host, port,
    database name, user or password is unset or empty it logs the list of
    those names and exits with status 1, and otherwise it goes on.  The
    collector and the backfill job do not check the variables; when the
    connection attempt then fails they log it and return normally, with
    exit status 0. *)
Theorem startup_env_check :
  (forall env, missing_vars env <> [] ->
               forecaster_startup env = StartupExit 1 (missing_vars env)) /\
  (forall env, missing_vars env = [] -> forecaster_startup env = StartupContinue) /\
  (forall ext td env connect now api d, connect env = false ->
               o_exit (collector_main ext td env connect now api d) = 0) /\
  (forall ext fromts env connect api d, connect env = false ->
               o_exit (backfill_main ext fromts env connect api d) = 0 /\
               o_requested (backfill_main ext fromts env connect api d) = None).
Proof.
  split; [intros env; apply forecaster_startup_cases|].
  split; [intros env; apply forecaster_startup_cases|].
  split; [exact collector_no_connection|].
  intros ext fromts env connect api d Hc. unfold backfill_main. rewrite Hc. split; reflexivity.
Qed.

(** C4: counterexample *)
(** With all five variables unset and no reachable database, the collector
    ends with exit status 0. *)
Lemma collector_unset_env_exit_zero :
  missing_vars env_unset = ["host"; "port"; "dbname"; "user"; "password"] /\
  o_exit (collector_main strict_ext sample_to_datetime env_unset (fun _ => false) (fun _ => 0)
                         (api_only_bitcoin sample_market) None) = 0.
Proof. split; vm_compute; reflexivity. Qed.

(** C5 *)
(** A batch is one transaction: when the loader re-raises an error the
    table is as before the call (rolled back); when it returns normally the
    batch was empty or every insert of it succeeded and was committed.  The
    collector lets the error escape [main] (exit status 1, the reconciled
    table unchanged by the batch); the backfill job catches and logs it and
    ends with status 0, its table being the loader's result. *)
Theorem loader_transaction :
  (forall ext d df d' e, insert_data ext d df = (d', Some e) -> d' = d /\ df <> []) /\
  (forall ext d df d', insert_data ext d df = (d', None) ->
     (df = [] /\ d' = d) \/
     exists t t', d = Some t /\ d' = Some t' /\ executemany ext t (map row_values df) = inl t') /\
  (forall ext td env connect now api d e,
     fetch_crypto_data td now api <> [] -> connect env = true ->
     snd (insert_data ext (create_table_if_not_exists d) (fetch_crypto_data td now api)) = Some e ->
     o_raised (collector_main ext td env connect now api d) = Some e /\
     o_exit (collector_main ext td env connect now api d) = 1 /\
     o_db (collector_main ext td env connect now api d) = create_table_if_not_exists d) /\
  (forall ext fromts env connect api d,
     o_raised (backfill_main ext fromts env connect api d) = None /\
     o_exit (backfill_main ext fromts env connect api d) = 0 /\
     (connect env = true -> exists days,
        o_requested (backfill_main ext fromts env connect api d) = Some days /\
        o_db (backfill_main ext fromts env connect api d)
          = fst (insert_historical_data ext d (fetch_historical_data fromts (api days))))).
Proof.
  split.
  { intros ext d df d' e H. unfold insert_data in H. destruct df as [|r rs]; [discriminate|].
    destruct d as [t|]; [|inversion H; subst; split; congruence].
    destruct (executemany ext t _); inversion H; subst; split; congruence. }
  split.
  { intros ext d df d'. unfold insert_data. destruct df as [|r rs].
    - intros H; injection H as <-. left; split; reflexivity.
    - destruct d as [t|]; [|discriminate].
      destruct (executemany ext t _) as [t'|e] eqn:He; intros H; [|discriminate].
      injection H as <-. right. exists t, t'. auto. }
  split.
  { intros ext td env connect now api d e Hne Hc Hins. unfold collector_main.
    destruct (fetch_crypto_data td now api) as [|r rs]; [congruence|].
    rewrite Hc. simpl negb. cbv iota.
    destruct (insert_data ext (create_table_if_not_exists d) (r :: rs)) as [d2 err] eqn:Hi.
    simpl in Hins. subst err. simpl.
    pose proof Hi as Hi'. unfold insert_data in Hi'.
    destruct (create_table_if_not_exists d) as [t|];
      [destruct (executemany ext t _)|]; inversion Hi'; subst; auto. }
  intros ext fromts env connect api d.
  destruct (backfill_exit_zero ext fromts env connect api d) as [H1 H2].
  split; [exact H1|]. split; [exact H2|].
  intros Hc. unfold backfill_main. rewrite Hc. simpl negb. cbv iota.
  exists (if check_current_data d <? 30 then 30 else 7).
  destruct (fetch_historical_data _ _) eqn:Hf; [split; reflexivity|].
  destruct (insert_historical_data ext d _). split; reflexivity.
Qed.

(** C5: counterexample *)
(** Run before any table exists, the backfill job's insert fails, and the
    error does not escape: the job ends with status 0. *)
Lemma backfill_swallows_insert_error :
  snd (insert_historical_data strict_ext None (fetch_historical_data utc_fromtimestamp (sample_hist 30)))
    = Some UndefinedTable /\
  o_raised (backfill_main strict_ext utc_fromtimestamp env_full (fun _ => true) sample_hist None) = None /\
  o_exit (backfill_main strict_ext utc_fromtimestamp env_full (fun _ => true) sample_hist None) = 0.
Proof. vm_compute. auto. Qed.

(** *** Null handling *)




Ltac destruct_lets H :=
  repeat match type of H with
         | context [match ?x with Some _ => _ | None => None end] =>
             let E := fresh "E" in destruct x eqn:E; [|discriminate H]
         end.








(** *** What runs do to stored rows *)

Lemma insert_data_extends ext (d : db) (df : list frame_row) :
  extends d (fst (insert_data ext d df)).
Proof.
  unfold insert_data. destruct df as [|r rs]; [left; reflexivity|].
  destruct d as [t|]; [|left; reflexivity].
  destruct (executemany ext t (map row_values (r :: rs))) as [t'|e] eqn:He; [|left; reflexivity].
  right. destruct (executemany_extends _ _ _ _ He) as [Hs [Hu [added Ha]]].
  exists t, t', added. auto.
Qed.

Lemma insert_data_error ext (d : db) (df : list frame_row) :
  snd (insert_data ext d df) <> None -> fst (insert_data ext d df) = d.
Proof.
  unfold insert_data. destruct df as [|r rs]; [simpl; congruence|].
  destruct d as [t|]; [|reflexivity].
  destruct (executemany ext t (map row_values (r :: rs))); simpl; [congruence | reflexivity].
Qed.

Lemma create_table_keeps (d : db) :
  (forall c, In c expected_columns -> In c (existing_columns d)) ->
  create_table_if_not_exists d = d.
Proof.
  intros Hall. unfold create_table_if_not_exists.
  assert (Hf : forallb (fun col => mem col (existing_columns d)) expected_columns = true)
    by (apply forallb_mem_In; exact Hall).
  rewrite Hf.
  destruct (existing_columns d) as [|c0 cs] eqn:He; [|reflexivity].
  exfalso. apply (Hall "id"). left; reflexivity.
Qed.

Lemma create_table_drops (d : db) :
  (d = None \/ exists c, In c expected_columns /\ ~ In c (existing_columns d)) ->
  create_table_if_not_exists d = Some created_table.
Proof.
  intros H. unfold create_table_if_not_exists.
  destruct (forallb (fun col => mem col (existing_columns d)) expected_columns) eqn:Hf.
  - pose proof (proj1 (forallb_mem_In _ _) Hf) as Hall.
    destruct H as [-> | [c [Hc Hn]]].
    + exfalso. apply (Hall "id"). left; reflexivity.
    + exfalso. apply Hn, Hall, Hc.
  - rewrite orb_true_r. reflexivity.
Qed.

Lemma collector_db ext (td : json -> option pyval) env connect now api d :
  o_db (collector_main ext td env connect now api d) = d \/
  o_db (collector_main ext td env connect now api d)
    = fst (insert_data ext (create_table_if_not_exists d) (fetch_crypto_data td now api)).
Proof.
  unfold collector_main. destruct (fetch_crypto_data td now api) as [|r rs]; [left; reflexivity|].
  destruct (connect env); cbn [negb]; [|left; reflexivity].
  right. destruct (insert_data ext (create_table_if_not_exists d) (r :: rs)) as [d2 [e|]]; reflexivity.
Qed.

Lemma backfill_db ext fromts env connect api d :
  o_db (backfill_main ext fromts env connect api d) = d \/
  exists df, o_db (backfill_main ext fromts env connect api d) = fst (insert_historical_data ext d df).
Proof.
  unfold backfill_main. destruct (connect env); cbn [negb]; [|left; reflexivity].
  destruct (fetch_historical_data _ _) as [|r rs]; [left; reflexivity|].
  right. exists (r :: rs). destruct (insert_historical_data ext d (r :: rs)). reflexivity.
Qed.

(** C9 *)
(** Loading only appends: the loader never changes or removes a stored row,
    and a load that raises leaves the table as it was; the backfill job
    never changes or removes one either.  The collector keeps every stored
    row when the table already has all expected columns; in general its
    result only appends to what the reconciler left.  When the table is
    absent or lacks an expected column, the reconciler drops it with all
    its rows and recreates it empty from the DDL, and the collector's table
    afterwards is that empty table with rows appended (or the table as it
    was, when nothing was fetched or no connection was made). *)
Theorem loads_only_append :
  (forall ext d df, extends d (fst (insert_data ext d df)) /\
                    (snd (insert_data ext d df) <> None -> fst (insert_data ext d df) = d)) /\
  (forall ext fromts env connect api d,
     extends d (o_db (backfill_main ext fromts env connect api d))) /\
  (forall ext td env connect now api d,
     (forall c, In c expected_columns -> In c (existing_columns d)) ->
     extends d (o_db (collector_main ext td env connect now api d))) /\
  (forall ext td env connect now api d,
     o_db (collector_main ext td env connect now api d) = d \/
     extends (create_table_if_not_exists d) (o_db (collector_main ext td env connect now api d))) /\
  (forall ext td env connect now api d,
     (d = None \/ exists c, In c expected_columns /\ ~ In c (existing_columns d)) ->
     create_table_if_not_exists d = Some created_table /\ trows created_table = [] /\
     (o_db (collector_main ext td env connect now api d) = d \/
      extends (Some created_table) (o_db (collector_main ext td env connect now api d)))).
Proof.
  split; [intros ext d df; split; [apply insert_data_extends | apply insert_data_error]|].
  split.
  { intros ext fromts env connect api d.
    destruct (backfill_db ext fromts env connect api d) as [-> | [df ->]].
    - left; reflexivity.
    - apply insert_data_extends. }
  split.
  { intros ext td env connect now api d Hall.
    destruct (collector_db ext td env connect now api d) as [-> | ->]; [left; reflexivity|].
    rewrite <- (create_table_keeps d Hall) at 1. apply insert_data_extends. }
  split.
  { intros ext td env connect now api d.
    destruct (collector_db ext td env connect now api d) as [-> | ->]; [left; reflexivity|].
    right. apply insert_data_extends. }
  intros ext td env connect now api d Hmiss.
  pose proof (create_table_drops d Hmiss) as Hdrop.
  split; [exact Hdrop|]. split; [reflexivity|].
  destruct (collector_db ext td env connect now api d) as [-> | ->]; [left; reflexivity|].
  right. rewrite Hdrop. apply insert_data_extends.
Qed.

(** C9: counterexample *)
(** A collector run over a [crypto_prices] of an older layout (no
    [created_at]) drops the table: the stored row is gone afterwards. *)
Lemma collector_drops_old_layout_rows :
  In old_row (trows old_layout_table) /\
  exists t, o_db (collector_main strict_ext sample_to_datetime env_full (fun _ => true) (fun _ => 0)
                   (api_only_bitcoin sample_market) (Some old_layout_table)) = Some t /\
            ~ In old_row (trows t).
Proof.
  split; [left; reflexivity|].
  eexists. split; [vm_compute; reflexivity|].
  simpl. intros [H | []]. discriminate H.
Qed.

(** *** The backfill window *)

Lemma backfill_requested ext fromts env connect api d :
  connect env = true ->
  o_requested (backfill_main ext fromts env connect api d)
    = Some (if check_current_data d <? 30 then 30 else 7).
Proof.
  intros Hc. unfold backfill_main. rewrite Hc. simpl negb. cbv iota.
  destruct (fetch_historical_data _ _); [reflexivity|].
  destruct (insert_historical_data _ _ _). reflexivity.
Qed.

(** C10 *)
(** Once connected, the backfill job requests 30 days of history when
    [check_current_data] returns fewer than 30 and 7 days otherwise.  That
    count is the number of rows with coin_id 'bitcoin' when [crypto_prices]
    has both its [coin_id] and [timestamp] columns: then fewer than 30 such
    rows give a 30-day request and 30 or more exactly 7 days.  When the
    table is absent, or either column is missing, the count query fails, the
    count is taken as 0 and 30 days are requested, however many bitcoin
    rows there are. *)
Theorem backfill_window :
  forall ext fromts env connect api (d : db),
  connect env = true ->
  (forall t, d = Some t -> In "coin_id" (tcols t) -> In "timestamp" (tcols t) ->
     ((List.length (filter is_bitcoin (trows t)) < 30)%nat ->
        o_requested (backfill_main ext fromts env connect api d) = Some 30) /\
     ((30 <= List.length (filter is_bitcoin (trows t)))%nat ->
        o_requested (backfill_main ext fromts env connect api d) = Some 7)) /\
  (forall t, d = Some t -> (~ In "coin_id" (tcols t) \/ ~ In "timestamp" (tcols t)) ->
     o_requested (backfill_main ext fromts env connect api d) = Some 30) /\
  (d = None -> o_requested (backfill_main ext fromts env connect api d) = Some 30).
Proof.
  intros ext fromts env connect api d Hc.
  rewrite (backfill_requested ext fromts env connect api d Hc).
  split; [|split].
  - intros t -> H1 H2. unfold check_current_data.
    rewrite (proj2 (mem_In _ _) H1), (proj2 (mem_In _ _) H2). simpl andb. cbv iota.
    split.
    + intros Hlt. replace (Z.of_nat _ <? 30) with true; [reflexivity|].
      symmetry. apply Z.ltb_lt. lia.
    + intros Hge. replace (Z.of_nat _ <? 30) with false; [reflexivity|].
      symmetry. apply Z.ltb_ge. lia.
  - intros t -> Hmiss. unfold check_current_data.
    replace (mem "coin_id" (tcols t) && mem "timestamp" (tcols t)) with false; [reflexivity|].
    symmetry. apply andb_false_iff.
    destruct Hmiss as [Hn | Hn]; [left | right];
      destruct (mem _ (tcols t)) eqn:Hm; try reflexivity; exfalso; apply Hn, mem_In, Hm.
  - intros ->. reflexivity.
Qed.

(** C10: witness *)
Lemma backfill_window_witness :
  ((fun _ : config => true) env_full = true /\
   In "coin_id" (tcols (bitcoin_table 30)) /\ In "timestamp" (tcols (bitcoin_table 30)) /\
   (30 <= List.length (filter is_bitcoin (trows (bitcoin_table 30))))%nat) /\
  o_requested (backfill_main strict_ext utc_fromtimestamp env_full (fun _ => true) sample_hist
                 (Some (bitcoin_table 30))) = Some 7.
Proof.
  assert (H1 : In "coin_id" (tcols (bitcoin_table 30))) by (apply mem_In; vm_compute; reflexivity).
  assert (H2 : In "timestamp" (tcols (bitcoin_table 30))) by (apply mem_In; vm_compute; reflexivity).
  assert (H3 : (30 <= List.length (filter is_bitcoin (trows (bitcoin_table 30))))%nat)
    by (vm_compute; lia).
  split; [split; [reflexivity | split; [exact H1 | split; [exact H2 | exact H3]]]|].
  exact (proj2 (proj1 (backfill_window strict_ext utc_fromtimestamp env_full (fun _ => true)
                         sample_hist (Some (bitcoin_table 30)) eq_refl)
                  (bitcoin_table 30) eq_refl H1 H2) H3).
Defined.

(** C10: counterexample *)
(** A table with a [coin_id] column but no [timestamp] column holding 30
    bitcoin rows: the count query fails, and 30 days are requested. *)
Lemma backfill_counts_only_with_timestamp :
  In "coin_id" (tcols no_timestamp_table) /\ ~ In "timestamp" (tcols no_timestamp_table) /\
  List.length (filter is_bitcoin (trows no_timestamp_table)) = 30%nat /\
  o_requested (backfill_main strict_ext utc_fromtimestamp env_full (fun _ => true) sample_hist
                 (Some no_timestamp_table)) = Some 30.
Proof.
  split; [apply mem_In; vm_compute; reflexivity|].
  split; [intros H; apply mem_In in H; vm_compute in H; discriminate H|].
  split; vm_compute; reflexivity.
Qed.
(** *** The forecast dates *)































(* ================================================================== *)
(** * Further properties of the code *)

(** *** The forecaster *)








Lemma filter_filter_sub {A : Type} (f g : A -> bool) (l : list A) :
  (forall x, g x = true -> f x = true) -> filter g (filter f l) = filter g l.
Proof.
  intros H. induction l as [|x l IH]; simpl; [reflexivity|].
  destruct (f x) eqn:Hf; simpl.
  - destruct (g x); rewrite IH; reflexivity.
  - destruct (g x) eqn:Hg; [rewrite (H x Hg) in Hf; discriminate | exact IH].
Qed.

(** Pruning twice is pruning once with the later cutoff: a run of the
    pruner after an earlier one, with a cutoff at least as late, leaves the
    same table as that run alone. *)
Theorem cleanup_old_forecasts_compose :
  forall db_now1 days1 db_now2 days2 t,
  db_now1 - days1 * day <= db_now2 - days2 * day ->
  cleanup_old_forecasts db_now2 days2 (cleanup_old_forecasts db_now1 days1 t)
    = cleanup_old_forecasts db_now2 days2 t.
Proof.
  intros n1 k1 n2 k2 t Hle. unfold cleanup_old_forecasts.
  apply filter_filter_sub. intros r.
  destruct (String.eqb (p_symbol r) "BTC"); cbn [andb negb]; [|reflexivity].
  destruct (p_created_at r) as [c|]; [|reflexivity].
  destruct (Z.ltb_spec c (n2 - k2 * day)); [discriminate|].
  intros _. apply negb_true_iff, Z.ltb_ge. lia.
Qed.

Lemma cleanup_old_forecasts_compose_witness :
  0 - 30 * day <= 10 * day - 30 * day /\
  cleanup_old_forecasts (10 * day) 30 (cleanup_old_forecasts 0 30 [eth_prediction])
    = cleanup_old_forecasts (10 * day) 30 [eth_prediction].
Proof.
  assert (H : 0 - 30 * day <= 10 * day - 30 * day) by (unfold day; lia).
  split; [exact H | apply (cleanup_old_forecasts_compose 0 30 (10 * day) 30 _ H)].
Defined.

(** *** Reading back recent forecasts *)

Lemma recent_le_total (a b : prediction) : recent_le a b = false -> recent_le b a = true.
Proof.
  unfold recent_le. destruct (p_created_at a), (p_created_at b); intros H; try discriminate;
    try reflexivity;
    rewrite ?orb_true_iff, ?orb_false_iff, ?andb_true_iff, ?andb_false_iff,
      ?Z.ltb_lt, ?Z.ltb_ge, ?Z.eqb_eq, ?Z.eqb_neq, ?Z.leb_le, ?Z.leb_gt in *; lia.
Qed.

Lemma recent_le_trans (a b c : prediction) :
  recent_le a b = true -> recent_le b c = true -> recent_le a c = true.
Proof.
  unfold recent_le.
  destruct (p_created_at a), (p_created_at b), (p_created_at c); intros H1 H2;
    try discriminate; try reflexivity;
    rewrite ?orb_true_iff, ?andb_true_iff, ?Z.ltb_lt, ?Z.eqb_eq, ?Z.leb_le in *; lia.
Qed.

Lemma insert_by_perm (le : prediction -> prediction -> bool) (x : prediction)
  (l : list prediction) : Permutation (insert_by le x l) (x :: l).
Proof.
  induction l as [|y l IH]; simpl; [reflexivity|].
  destruct (le x y); [reflexivity|].
  rewrite IH. apply perm_swap.
Qed.

Lemma sort_by_perm (le : prediction -> prediction -> bool) (l : list prediction) :
  Permutation (sort_by le l) l.
Proof.
  induction l as [|x l IH]; simpl; [reflexivity|].
  rewrite insert_by_perm. apply perm_skip. exact IH.
Qed.

Lemma insert_by_recent_sorted (x : prediction) (l : list prediction) :
  StronglySorted (fun a b => recent_le a b = true) l ->
  StronglySorted (fun a b => recent_le a b = true) (insert_by recent_le x l).
Proof.
  induction l as [|y l IH]; simpl; intros Hs.
  - repeat constructor.
  - inversion Hs as [|? ? Hl Hy]; subst.
    destruct (recent_le x y) eqn:Hxy.
    + constructor; [exact Hs|]. constructor; [exact Hxy|].
      eapply Forall_impl; [|exact Hy]. intros z Hz. eapply recent_le_trans; eauto.
    + constructor; [apply IH; exact Hl|].
      apply Forall_forall. intros z Hz.
      apply (Permutation_in _ (insert_by_perm recent_le x l)) in Hz.
      destruct Hz as [<- | Hz]; [apply recent_le_total; exact Hxy|].
      exact (proj1 (Forall_forall _ _) Hy z Hz).
Qed.

Lemma sort_by_recent_sorted (l : list prediction) :
  StronglySorted (fun a b => recent_le a b = true) (sort_by recent_le l).
Proof.
  induction l as [|x l IH]; simpl; [constructor|].
  apply insert_by_recent_sorted. exact IH.
Qed.

Lemma StronglySorted_app_rel {A : Type} (R : A -> A -> Prop) (l1 l2 : list A) :
  StronglySorted R (l1 ++ l2)%list -> forall x y, In x l1 -> In y l2 -> R x y.
Proof.
  induction l1 as [|a l1 IH]; simpl; intros Hs x y Hx Hy; [contradiction|].
  inversion Hs as [|? ? Hl Ha]; subst.
  destruct Hx as [<- | Hx].
  - apply (proj1 (Forall_forall _ _) Ha). apply in_or_app. right. exact Hy.
  - apply IH; assumption.
Qed.

(** get_recent_forecasts returns [min limit n] rows when the table holds
    [n] 'BTC' rows, all of them stored 'BTC' rows, and they are the first
    ones in the query's order: each returned row may come before every
    'BTC' row left out (so a row with a null [created_at] is returned
    ahead of any row with a creation time). *)
Theorem get_recent_forecasts_top :
  forall (t : list prediction) (limit : nat),
  List.length (get_recent_forecasts (Some t) limit)
    = Nat.min limit (List.length (filter (fun r => String.eqb (p_symbol r) "BTC") t)) /\
  (forall r, In r (get_recent_forecasts (Some t) limit) -> In r t /\ p_symbol r = "BTC") /\
  (forall r r', In r (get_recent_forecasts (Some t) limit) -> In r' t -> p_symbol r' = "BTC" ->
     ~ In r' (get_recent_forecasts (Some t) limit) -> recent_le r r' = true).
Proof.
  intros t limit. unfold get_recent_forecasts.
  set (btc := filter (fun r => String.eqb (p_symbol r) "BTC") t).
  set (s := sort_by recent_le btc).
  assert (Hp : Permutation s btc) by apply sort_by_perm.
  split; [|split].
  - rewrite length_firstn, (Permutation_length Hp). reflexivity.
  - intros r Hr.
    assert (Hr1 : In r s) by (rewrite <- (firstn_skipn limit s); apply in_or_app; left; exact Hr).
    apply (Permutation_in _ Hp) in Hr1. rename Hr1 into Hr0. clear Hr. rename Hr0 into Hr. unfold btc in Hr.
    apply filter_In in Hr as [Hin Hs]. split; [exact Hin | apply String.eqb_eq; exact Hs].
  - intros r r' Hr Hr' Hs' Hn.
    assert (Hb : In r' s).
    { apply (Permutation_in _ (Permutation_sym Hp)). unfold btc. apply filter_In.
      split; [exact Hr' | apply String.eqb_eq; exact Hs']. }
    rewrite <- (firstn_skipn limit s) in Hb. apply in_app_or in Hb.
    destruct Hb as [Hb | Hb]; [contradiction|].
    apply (StronglySorted_app_rel (fun a b => recent_le a b = true) (firstn limit s) (skipn limit s)).
    + rewrite firstn_skipn. apply sort_by_recent_sorted.
    + exact Hr.
    + exact Hb.
Qed.


(** *** The reconciler *)

Lemma create_table_cases (d : db) :
  create_table_if_not_exists d = d \/ create_table_if_not_exists d = Some created_table.
Proof.
  unfold create_table_if_not_exists.
  destruct (_ || _); [right | left]; reflexivity.
Qed.

Lemma create_table_expected (d : db) :
  exists t, create_table_if_not_exists d = Some t /\
            (forall c, In c expected_columns -> In c (tcols t)).
Proof.
  destruct (forallb (fun col => mem col (existing_columns d)) expected_columns) eqn:Hf.
  - pose proof (proj1 (forallb_mem_In _ _) Hf) as Hall.
    rewrite (create_table_keeps d Hall).
    destruct d as [t|]; [|exfalso; apply (Hall "id"); left; reflexivity].
    exists t. split; [reflexivity | exact Hall].
  - exists created_table. split; [|intros c Hc; rewrite tcols_created; exact Hc].
    unfold create_table_if_not_exists. rewrite Hf, orb_true_r. reflexivity.
Qed.

(** The reconciler is idempotent: a second run right after the first
    neither drops nor alters the table. *)
Theorem create_table_idempotent :
  forall d : db,
  create_table_if_not_exists (create_table_if_not_exists d) = create_table_if_not_exists d.
Proof.
  intros d. destruct (create_table_expected d) as [t [Ht Hall]]. rewrite Ht.
  apply create_table_keeps. exact Hall.
Qed.

(** *** Rerunning the collector *)

(** A fetched row whose coin id is not JSON null has a non-null natural
    key: its timestamp is the observation time. *)
Lemma fetch_coin_key (td : json -> option pyval) (now : Z) (j : json) (r : frame_row) :
  fetch_coin td now (Some j) = Some r -> jget j "id" <> Some JNull ->
  nonnull_key (row_values r) <> None.
Proof.
  intros H Hid. unfold fetch_coin in H.
  destruct (jget j "market_data") as [mkt|]; [|discriminate H].
  destruct (jget j "id") as [id|]; [|discriminate H].
  destruct_lets H. injection H as <-.
  destruct id; cbn; try discriminate. exfalso. apply Hid. reflexivity.
Qed.

Lemma fetch_crypto_data_In (td : json -> option pyval) (now : string -> Z)
  (api : string -> option json) (r : frame_row) :
  In r (fetch_crypto_data td now api) ->
  exists coin j, api coin = Some j /\ fetch_coin td (now coin) (Some j) = Some r.
Proof.
  unfold fetch_crypto_data. generalize COINS as coins.
  induction coins as [|c cs IH]; simpl; [intros []|].
  destruct (api c) as [j|] eqn:Ha; [|simpl; exact IH].
  destruct (fetch_coin td (now c) (Some j)) as [r0|] eqn:Hf; [|exact IH].
  intros [<- | Hr]; [exists c, j; auto | exact (IH Hr)].
Qed.

Lemma insert_data_rerun ext (t1 : table) (df : list frame_row) (d2 : db) (err : option db_error) :
  Forall (fun r => nonnull_key (row_values r) <> None) df ->
  insert_data ext (Some t1) df = (d2, err) ->
  (d2 = Some t1 /\ err <> None) \/
  (err = None /\ exists t2, d2 = Some t2 /\ tschema t2 = tschema t1 /\
                            insert_data ext d2 df = (d2, None)).
Proof.
  intros Hkeys. unfold insert_data. destruct df as [|r rs]; intros H.
  - inversion H; subst. right. split; [reflexivity|]. exists t1. auto.
  - destruct (executemany ext t1 (map row_values (r :: rs))) as [t'|e] eqn:He; inversion H; subst.
    + right. split; [reflexivity|]. exists t'.
      destruct (executemany_extends _ _ _ _ He) as [Hs [Hu _]].
      destruct (executemany_keys _ _ _ _ He) as [_ Hk].
      pose proof (executemany_checks _ _ _ _ He) as Hok.
      split; [reflexivity|]. split; [exact Hs|].
      rewrite executemany_present; [reflexivity|].
      intros x Hx. split.
      * rewrite (check_row_layout ext t1 t' x Hs Hu). exact (proj1 (Forall_forall _ _) Hok x Hx).
      * apply in_map_iff in Hx as [fr [<- Hfr]].
        destruct (nonnull_key (row_values fr)) as [k|] eqn:Hkf.
        -- exists k. split; [reflexivity|]. apply (Hk (row_values fr) k); [|exact Hkf].
           apply in_map. exact Hfr.
        -- exfalso. exact (proj1 (Forall_forall _ _) Hkeys fr Hfr Hkf).
    + left. split; [reflexivity | discriminate].
Qed.

(** Running the collector again with the same responses and observation
    times gives the same outcome as the first run, and leaves the table as
    the first run left it, provided no response has a JSON null coin id
    (a row with a NULL [coin_id] never conflicts, so it would be stored
    again): the reconciler keeps the table, and every row of the batch is
    either already stored or fails again the way it failed the first
    time. *)
Theorem collector_rerun_idempotent :
  forall ext td env connect now api d,
  (forall coin j, api coin = Some j -> jget j "id" <> Some JNull) ->
  collector_main ext td env connect now api (o_db (collector_main ext td env connect now api d))
    = collector_main ext td env connect now api d.
Proof.
  intros ext td env connect now api d Hid.
  assert (Hkeys : Forall (fun r => nonnull_key (row_values r) <> None)
                         (fetch_crypto_data td now api)).
  { apply Forall_forall. intros r Hr.
    destruct (fetch_crypto_data_In td now api r Hr) as [coin [j [Ha Hf]]].
    exact (fetch_coin_key td (now coin) j r Hf (Hid coin j Ha)). }
  unfold collector_main. revert Hkeys.
  destruct (fetch_crypto_data td now api) as [|r rs]; intros Hkeys; [reflexivity|].
  destruct (connect env); cbn [negb]; [|reflexivity].
  destruct (create_table_expected d) as [t1 [Ht1 Hall]]. rewrite Ht1.
  destruct (insert_data ext (Some t1) (r :: rs)) as [d2 err] eqn:Hins.
  destruct (insert_data_rerun _ _ _ _ _ Hkeys Hins) as [[-> Herr] | [-> [t2 [-> [Hs Hre]]]]].
  - destruct err as [e|]; [|congruence]. cbn [o_db].
    rewrite create_table_keeps by exact Hall. rewrite Hins. reflexivity.
  - cbn [o_db]. rewrite create_table_keeps.
    + rewrite Hre. reflexivity.
    + intros c Hc. cbn [existing_columns]. unfold tcols. rewrite Hs. exact (Hall c Hc).
Qed.

Lemma collector_rerun_idempotent_witness :
  (forall coin j, api_only_bitcoin sample_market coin = Some j -> jget j "id" <> Some JNull) /\
  collector_main strict_ext sample_to_datetime env_full (fun _ => true) (fun _ => 0)
    (api_only_bitcoin sample_market)
    (o_db (collector_main strict_ext sample_to_datetime env_full (fun _ => true) (fun _ => 0)
             (api_only_bitcoin sample_market) (Some created_table)))
  = collector_main strict_ext sample_to_datetime env_full (fun _ => true) (fun _ => 0)
      (api_only_bitcoin sample_market) (Some created_table).
Proof.
  assert (H : forall coin j, api_only_bitcoin sample_market coin = Some j -> jget j "id" <> Some JNull).
  { intros coin j Hj. unfold api_only_bitcoin in Hj.
    destruct (String.eqb coin "bitcoin"); [|discriminate Hj].
    injection Hj as <-. cbn. discriminate. }
  split; [exact H|].
  exact (collector_rerun_idempotent strict_ext sample_to_datetime env_full (fun _ => true)
           (fun _ => 0) (api_only_bitcoin sample_market) (Some created_table) H).
Defined.

(** *** The backfill *)









(** The backfill never creates [crypto_prices]: when the table is absent
    it stays absent and the run still exits with status 0. *)
Theorem backfill_absent_table :
  forall ext fromts env connect api,
  o_db (backfill_main ext fromts env connect api None) = None /\
  o_exit (backfill_main ext fromts env connect api None) = 0.
Proof.
  intros ext fromts env connect api. unfold backfill_main.
  destruct (negb (connect env)); [split; reflexivity|].
  destruct (fetch_historical_data _ _) as [|r rs]; [split; reflexivity|].
  unfold insert_historical_data, insert_data. split; reflexivity.
Qed.
